(** * colourise-go-test-output: a model of [bin/colourise-go-test-output.py]

    The script is a line filter.  It reads the JSON events that
    [go test -json] prints, keeps a buffer of output fragments per test,
    and writes every fragment, wrapped in an ANSI colour, to stdout or to
    stderr.  This file embeds [main] as a function on the sequence of
    input lines and proves the properties of the routing, of the per-test
    state and of the exit status. *)

From Stdlib Require Import String Ascii List ZArith Bool.
From stdpp Require Import gmap strings list fin_maps.

Local Open Scope string_scope.
Local Open Scope list_scope.

(** ** Python strings *)

Module Py.

(** [needle in s] on two [str] values: [needle] occurs as a substring. *)
Fixpoint contains (needle s : string) : bool :=
  String.prefix needle s ||
  match s with
  | EmptyString => false
  | String _ rest => contains needle rest
  end.

(** Truth value of a [str]: only the empty string is falsy. *)
Definition truthy (s : string) : bool :=
  match s with
  | EmptyString => false
  | String _ _ => true
  end.

(** [s == t] on two [str] values. *)
Definition str_eq (s t : string) : bool := bool_decide (s = t).

End Py.

(** ** class Colors *)

Module Colors.

Definition ESC : string := String (ascii_of_nat 27) EmptyString.

Definition LIGHT_GREY : string := ESC +:+ "[90m".
Definition RED : string := ESC +:+ "[91m".
Definition YELLOW : string := ESC +:+ "[93m".
Definition RESET : string := ESC +:+ "[0m".

End Colors.

(** ** Input lines *)

(** The dict that [json.loads] returns for a JSON object, seen through the
    five keys [main] reads.  [None] is an absent key.  The values of
    [Package], [Test], [Action] and [Output] are JSON strings, which is
    what [go test -json] writes; an object that carries another kind of
    value under one of these four keys is outside this model.  [main]
    only tests [Elapsed] for presence, so its value is kept as the text of
    the JSON literal. *)
Record dict := Dict {
  Package : option string;
  Test : option string;
  Action : option string;
  Output : option string;
  Elapsed : option string
}.

(** [data.get(key, '')] *)
Definition get (field : option string) (dflt : string) : string :=
  default dflt field.

(** The value [json.loads] returns. *)
#[warnings="-register-all"]
Inductive json :=
| JNull
| JBool (b : bool)
| JNumber (literal : string)
| JString (s : string)
| JArray (items : list json)
| JObject (data : dict).

(** One line of [sys.stdin], classified by what lines 30 to 37 of the
    script do with it. *)
Inductive input_line :=
| Blank                       (* [line.strip()] is empty *)
| Malformed (text : string)   (* [json.loads] raises [JSONDecodeError] *)
| Decoded (value : json).     (* [json.loads] returns [value] *)

(** ** Output *)

Inductive stream := Stdout | Stderr.

Inductive io_event :=
| Write (fd : stream) (text : string)
| Flush (fd : stream).

#[global] Instance stream_eq_dec : EqDecision stream.
Proof. solve_decision. Defined.

(** [fd.write(f"{colour}{text}{Colors.RESET}")] followed by [fd.flush()] *)
Definition emit (fd : stream) (colour text : string) : list io_event :=
  [Write fd (colour +:+ text +:+ Colors.RESET); Flush fd].

(** ** The state of [main] *)

Record state := State {
  test_buffers : gmap string (list string);
  failed_tests : gset string;
  any_test_failed : bool
}.

Definition initial : state :=
  {| test_buffers := ∅; failed_tests := ∅; any_test_failed := false |}.

(** [test_buffers] is a [defaultdict(list)]: subscripting a missing key
    stores an empty list under it and returns that list. *)
Definition subscript (key : string) (buffers : gmap string (list string))
  : list string * gmap string (list string) :=
  match buffers !! key with
  | Some fragments => (fragments, buffers)
  | None => ([], <[key := []]> buffers)
  end.

(** ** The body of the loop, lines 39 to 81 *)

Definition package_of (data : dict) : string := get (Package data) "".
Definition test_of (data : dict) : string := get (Test data) "".
Definition action_of (data : dict) : string := get (Action data) "".
Definition output_of (data : dict) : string := get (Output data) "".

(** Line 45: [f"{package}::{test}" if test else package] *)
Definition test_key (data : dict) : string :=
  if Py.truthy (test_of data)
  then package_of data +:+ "::" +:+ test_of data
  else package_of data.

(** Lines 48 and 49: [test_buffers[test_key].append(output)] *)
Definition buffer_output (data : dict) (st : state) : state :=
  if Py.truthy (test_of data) && Py.truthy (output_of data) then
    let '(fragments, buffers) := subscript (test_key data) (test_buffers st) in
    {| test_buffers := <[test_key data := fragments ++ [output_of data]]> buffers;
       failed_tests := failed_tests st;
       any_test_failed := any_test_failed st |}
  else st.

(** Lines 56 to 58: the replay of a buffer in yellow on stderr. *)
Definition replay (fragments : list string) : list io_event :=
  flat_map (emit Stderr Colors.YELLOW) fragments.

(** Lines 52 to 58: the [fail] action. *)
Definition on_fail (data : dict) (st : state) : state * list io_event :=
  if Py.str_eq (action_of data) "fail" then
    let '(fragments, buffers) := subscript (test_key data) (test_buffers st) in
    ({| test_buffers := buffers;
        failed_tests := {[test_key data]} ∪ failed_tests st;
        any_test_failed := true |},
     replay fragments)
  else (st, []).

(** Lines 61 to 75: the colour and the stream of the event's own output. *)
Definition classify (data : dict) (st : state) : list io_event :=
  if Py.truthy (output_of data) then
    if Py.contains "FAIL" (output_of data) then
      emit Stderr Colors.RED (output_of data)
    else if bool_decide (test_key data ∈ failed_tests st) then
      emit Stderr Colors.YELLOW (output_of data)
    else
      emit Stdout Colors.LIGHT_GREY (output_of data)
  else [].

(** Lines 78 to 81: the clean-up when the event has an [Elapsed] key. *)
Definition cleanup (data : dict) (st : state) : state :=
  match Elapsed data with
  | Some _ =>
      {| test_buffers :=
           if bool_decide (is_Some (test_buffers st !! test_key data))
           then delete (test_key data) (test_buffers st)
           else test_buffers st;
         failed_tests := failed_tests st ∖ {[test_key data]};
         any_test_failed := any_test_failed st |}
  | None => st
  end.

(** Lines 39 to 81 in order. *)
Definition process (data : dict) (st : state) : state * list io_event :=
  let st1 := buffer_output data st in
  let '(st2, replayed) := on_fail data st1 in
  let own := classify data st2 in
  (cleanup data st2, replayed ++ own).

(** ** The loop and the process *)

Inductive exception :=
| AttributeError.   (* [data.get] on a value that is not a dict *)

Inductive step :=
| Next (st : state) (written : list io_event)
| Raise (e : exception).

(** One iteration of [for line in sys.stdin], lines 30 to 81.  Only
    [JSONDecodeError] is caught; [data.get] on anything but a dict raises
    [AttributeError], which nothing catches. *)
Definition iteration (line : input_line) (st : state) : step :=
  match line with
  | Blank => Next st []
  | Malformed _ => Next st []
  | Decoded (JObject data) =>
      let '(st', written) := process data st in Next st' written
  | Decoded _ => Raise AttributeError
  end.

(** How the process ends: [sys.exit(main())] with the value [main]
    returned, or the interpreter's traceback for an uncaught exception. *)
Inductive ending :=
| Returned (code : Z)
| Traceback (e : exception).

(** The exit status the shell sees; CPython exits with 1 after an
    uncaught exception. *)
Definition exit_status (e : ending) : Z :=
  match e with
  | Returned code => code
  | Traceback _ => 1
  end.

(** The loop of lines 29 to 81 from state [st], then line 84.  The result
    is what was written, the state the loop stopped in and the ending. *)
Fixpoint loop (lines : list input_line) (st : state)
  : list io_event * state * ending :=
  match lines with
  | [] => ([], st, Returned (if any_test_failed st then 1 else 0)%Z)
  | line :: rest =>
      match iteration line st with
      | Next st' written =>
          let '(later, final, e) := loop rest st' in
          (written ++ later, final, e)
      | Raise e => ([], st, Traceback e)
      end
  end.

Definition main (lines : list input_line) : list io_event * state * ending :=
  loop lines initial.

(** What a run writes, and the exit status of the process. *)
Definition written_by (lines : list input_line) : list io_event :=
  (main lines).1.1.

Definition status_of (lines : list input_line) : Z :=
  exit_status (main lines).2.

(** What one stream received: the texts written to [fd], in order. *)
Definition on_stream (fd : stream) (trace : list io_event) : list string :=
  flat_map (fun ev => match ev with
                      | Write fd' text => if bool_decide (fd' = fd) then [text] else []
                      | Flush _ => []
                      end) trace.

(** ** Vocabulary of the statements *)

(** [FAIL in text], as a proposition. *)
Definition has_substring (needle text : string) : Prop :=
  ∃ before after, text = before +:+ needle +:+ after.

(** The fragments buffered under a key; a missing key has none. *)
Definition buffered (st : state) (key : string) : list string :=
  default [] (test_buffers st !! key).

(** What lines 48 and 49 append for this event. *)
Definition appended (data : dict) : list string :=
  if Py.truthy (test_of data) && Py.truthy (output_of data)
  then [output_of data] else [].

(** The state between line 58 and line 61. *)
Definition after_fail (data : dict) (st : state) : state :=
  (on_fail data (buffer_output data st)).1.

(** The events a run processes: the dicts of the decoded objects, in
    order, up to the first line on which [data.get] raises. *)
Fixpoint processed (lines : list input_line) : list dict :=
  match lines with
  | [] => []
  | Blank :: rest | Malformed _ :: rest => processed rest
  | Decoded (JObject data) :: rest => data :: processed rest
  | Decoded _ :: _ => []
  end.

(** The run reaches the end of its input. *)
Definition reaches_end (lines : list input_line) : Prop :=
  ∃ code, (main lines).2 = Returned code.

(** ** Sample inputs *)

(** The line feed that ends a fragment of test output. *)
Definition newline : string := String (ascii_of_nat 10) EmptyString.

(** A JSON object with the given Package, Test and Action, and with
    Output and Elapsed when given. *)
Definition event (package test action : string)
    (output elapsed : option string) : input_line :=
  Decoded (JObject {| Package := Some package; Test := Some test;
                      Action := Some action; Output := output;
                      Elapsed := elapsed |}).

(** A fail event that carries a result line of its own. *)
Definition hard_fail_line : dict :=
  {| Package := Some "p"; Test := Some "t"; Action := Some "fail";
     Output := Some "--- FAIL: t"; Elapsed := None |}.

(** Scenario B of the specification. *)
Definition scenario_B : list input_line :=
  [ event "p" "t" "run" None None;
    event "p" "t" "output" (Some ("boom" +:+ newline)) None;
    event "p" "t" "fail" None (Some "0.02") ].

(** How many of [texts] contain [fragment]. *)
Definition occurrences (fragment : string) (texts : list string) : nat :=
  length (List.filter (Py.contains fragment) texts).

(** Scenario B as the specification states it: the fragment is written
    twice on stderr and the status is 1. *)
Definition scenario_B_as_specified : Prop :=
  occurrences ("boom" +:+ newline) (on_stream Stderr (written_by scenario_B)) = 2
  ∧ status_of scenario_B = 1%Z.

(** The claim of the specification: every entry of [test_buffers] comes
    from the append of lines 48 and 49. *)
Definition entries_only_appended (lines : list input_line) : Prop :=
  ∀ k, is_Some (test_buffers (main lines).1.2 !! k) →
       ∃ data, data ∈ processed lines ∧ test_key data = k ∧
               test_of data ≠ "" ∧ output_of data ≠ "".

(** A package-level fail event: no Test, no Output, no Elapsed. *)
Definition package_fail : input_line :=
  Decoded (JObject {| Package := Some "p"; Test := None;
                      Action := Some "fail"; Output := None;
                      Elapsed := None |}).

(** ** Vocabulary of the properties of whole runs *)

(** A line the loop passes over, by lines 31 and 32 or by lines 36 and 37. *)
Definition skipped (line : input_line) : bool :=
  match line with
  | Blank | Malformed _ => true
  | Decoded _ => false
  end.

(** One [write] with the [flush] that follows it. *)
Definition chunk (c : stream * string) : list io_event :=
  [Write c.1 c.2; Flush c.1].

(** The three forms of text the script writes, each on its stream. *)
Inductive coloured : stream * string → Prop :=
| coloured_grey (fragment : string) :
    fragment ≠ "" → ¬ has_substring "FAIL" fragment →
    coloured (Stdout, Colors.LIGHT_GREY +:+ fragment +:+ Colors.RESET)
| coloured_red (fragment : string) :
    has_substring "FAIL" fragment →
    coloured (Stderr, Colors.RED +:+ fragment +:+ Colors.RESET)
| coloured_yellow (fragment : string) :
    fragment ≠ "" →
    coloured (Stderr, Colors.YELLOW +:+ fragment +:+ Colors.RESET).

(** Every buffered fragment is a non-empty string. *)
Definition fragments_nonempty (st : state) : Prop :=
  ∀ k fragments, test_buffers st !! k = Some fragments →
                 Forall (fun fragment => fragment ≠ "") fragments.

(** What an event appends to the buffer of key [k]. *)
Definition own_fragments (k : string) (data : dict) : list string :=
  if decide (test_key data = k) then appended data else [].

(** The event is not a completion of key [k]. *)
Definition keeps (k : string) (data : dict) : Prop :=
  test_key data = k → Elapsed data = None.

(** The state after a sequence of events. *)
Definition after_events (events : list dict) (st : state) : state :=
  foldl (fun st data => (process data st).1) st events.

(** ** Facts about the string operations *)

Lemma truthy_true (s : string) : Py.truthy s = true ↔ s ≠ "".
Proof. destruct s; simpl; split; congruence. Qed.

Lemma truthy_false_empty (s : string) : Py.truthy s = false → s = "".
Proof. by destruct s. Qed.

Lemma str_eq_true (s t : string) : Py.str_eq s t = true ↔ s = t.
Proof. unfold Py.str_eq. rewrite bool_decide_eq_true. tauto. Qed.

Lemma append_cons (a : ascii) (s t : string) :
  String a s +:+ t = String a (s +:+ t).
Proof. reflexivity. Qed.

Lemma prefix_append (needle s : string) :
  String.prefix needle s = true ↔ ∃ after, s = needle +:+ after.
Proof.
  revert s. induction needle as [|a needle IH]; intros s.
  - split; [intros _; exists s; reflexivity | intros _; by destruct s].
  - destruct s as [|b s].
    + split; [done | intros [after H]; discriminate H].
    + change (String.prefix (String a needle) (String b s)) with
        (if Ascii.ascii_dec a b then String.prefix needle s else false).
      destruct (Ascii.ascii_dec a b) as [->|Hne].
      * rewrite IH. split; intros [after H]; exists after.
        -- by rewrite append_cons, H.
        -- rewrite append_cons in H. congruence.
      * split; [done | intros [after H]; rewrite append_cons in H; congruence].
Qed.

Lemma contains_substring (needle s : string) :
  Py.contains needle s = true ↔ has_substring needle s.
Proof.
  unfold has_substring. induction s as [|c s IH].
  - change (Py.contains needle "") with (String.prefix needle "" || false).
    rewrite orb_false_r, prefix_append. split.
    + intros [after H]. by exists "", after.
    + intros [[|b before] [after H]]; [by exists after | discriminate H].
  - change (Py.contains needle (String c s))
      with (String.prefix needle (String c s) || Py.contains needle s).
    rewrite orb_true_iff, prefix_append, IH. split.
    + intros [[after H] | (before & after & H)].
      * by exists "", after.
      * exists (String c before), after. by rewrite append_cons, H.
    + intros [[|b before] [after H]].
      * left. by exists after.
      * right. exists before, after. rewrite append_cons in H. congruence.
Qed.

Lemma contains_false (needle s : string) :
  Py.contains needle s = false ↔ ¬ has_substring needle s.
Proof.
  rewrite <- contains_substring. destruct (Py.contains needle s); split; congruence.
Qed.

(** ** Facts about one event *)

Lemma subscript_fst (key : string) (m : gmap string (list string)) :
  (subscript key m).1 = default [] (m !! key).
Proof. unfold subscript. by destruct (m !! key). Qed.

Lemma subscript_lookup (key j : string) (m : gmap string (list string)) :
  (subscript key m).2 !! j =
  if decide (key = j) then Some (default [] (m !! key)) else m !! j.
Proof.
  unfold subscript. destruct (m !! key) eqn:E; simpl.
  - case_decide; congruence.
  - rewrite lookup_insert. by case_decide.
Qed.

Lemma buffer_output_failed (data : dict) (st : state) :
  failed_tests (buffer_output data st) = failed_tests st.
Proof.
  unfold buffer_output.
  destruct (Py.truthy (test_of data) && Py.truthy (output_of data)); [|done].
  by destruct (subscript _ _).
Qed.

Lemma buffer_output_flag (data : dict) (st : state) :
  any_test_failed (buffer_output data st) = any_test_failed st.
Proof.
  unfold buffer_output.
  destruct (Py.truthy (test_of data) && Py.truthy (output_of data)); [|done].
  by destruct (subscript _ _).
Qed.

Lemma buffer_output_lookup (data : dict) (st : state) (j : string) :
  test_buffers (buffer_output data st) !! j =
  if decide (test_key data = j)
  then (if Py.truthy (test_of data) && Py.truthy (output_of data)
        then Some (buffered st j ++ [output_of data])
        else test_buffers st !! j)
  else test_buffers st !! j.
Proof.
  unfold buffer_output, buffered.
  destruct (Py.truthy (test_of data) && Py.truthy (output_of data)).
  - destruct (subscript _ _) as [fragments buffers] eqn:E. simpl.
    rewrite lookup_insert. case_decide as Hk.
    + subst j. f_equal. f_equal.
      change fragments with (fragments, buffers).1. rewrite <- E.
      apply subscript_fst.
    + change buffers with (fragments, buffers).2. rewrite <- E.
      rewrite subscript_lookup. by case_decide.
  - by case_decide.
Qed.

Lemma buffer_output_buffered (data : dict) (st : state) :
  buffered (buffer_output data st) (test_key data) =
  buffered st (test_key data) ++ appended data.
Proof.
  unfold buffered at 1, appended. rewrite buffer_output_lookup.
  rewrite decide_True by done.
  destruct (Py.truthy (test_of data) && Py.truthy (output_of data)); simpl.
  - done.
  - by rewrite app_nil_r.
Qed.

Lemma on_fail_written (data : dict) (st : state) :
  (on_fail data st).2 =
  if Py.str_eq (action_of data) "fail"
  then replay (buffered st (test_key data)) else [].
Proof.
  unfold on_fail, buffered.
  destruct (Py.str_eq (action_of data) "fail"); [|done].
  destruct (subscript _ _) as [fragments buffers] eqn:E. simpl.
  change fragments with (fragments, buffers).1. rewrite <- E.
  by rewrite subscript_fst.
Qed.

Lemma on_fail_failed (data : dict) (st : state) :
  failed_tests (on_fail data st).1 =
  if Py.str_eq (action_of data) "fail"
  then {[test_key data]} ∪ failed_tests st else failed_tests st.
Proof.
  unfold on_fail. destruct (Py.str_eq (action_of data) "fail"); [|done].
  by destruct (subscript _ _).
Qed.

Lemma on_fail_flag (data : dict) (st : state) :
  any_test_failed (on_fail data st).1 =
  Py.str_eq (action_of data) "fail" || any_test_failed st.
Proof.
  unfold on_fail. destruct (Py.str_eq (action_of data) "fail"); [|done].
  by destruct (subscript _ _).
Qed.

Lemma on_fail_lookup (data : dict) (st : state) (j : string) :
  test_buffers (on_fail data st).1 !! j =
  if Py.str_eq (action_of data) "fail"
  then (if decide (test_key data = j)
        then Some (buffered st j) else test_buffers st !! j)
  else test_buffers st !! j.
Proof.
  unfold on_fail, buffered.
  destruct (Py.str_eq (action_of data) "fail"); [|done].
  destruct (subscript _ _) as [fragments buffers] eqn:E. simpl.
  change buffers with (fragments, buffers).2. rewrite <- E.
  rewrite subscript_lookup. case_decide; by subst.
Qed.

Lemma process_state (data : dict) (st : state) :
  (process data st).1 = cleanup data (after_fail data st).
Proof.
  unfold process, after_fail. by destruct (on_fail _ _).
Qed.

Lemma process_written (data : dict) (st : state) :
  (process data st).2 =
  (if Py.str_eq (action_of data) "fail"
   then replay (buffered st (test_key data) ++ appended data) else [])
  ++ classify data (after_fail data st).
Proof.
  unfold process, after_fail.
  rewrite <- buffer_output_buffered, <- on_fail_written.
  by destruct (on_fail _ _).
Qed.

Lemma after_fail_failed (data : dict) (st : state) (k : string) :
  k ∈ failed_tests (after_fail data st) ↔
  (action_of data = "fail" ∧ k = test_key data) ∨ k ∈ failed_tests st.
Proof.
  unfold after_fail. rewrite on_fail_failed, buffer_output_failed.
  destruct (Py.str_eq (action_of data) "fail") eqn:E.
  - apply str_eq_true in E. rewrite elem_of_union, elem_of_singleton. tauto.
  - assert (action_of data ≠ "fail") by (rewrite <- str_eq_true; congruence).
    tauto.
Qed.

Lemma cleanup_lookup (data : dict) (st : state) (j : string) :
  test_buffers (cleanup data st) !! j =
  match Elapsed data with
  | Some _ => if decide (test_key data = j) then None else test_buffers st !! j
  | None => test_buffers st !! j
  end.
Proof.
  unfold cleanup. destruct (Elapsed data); [|done]. simpl.
  case_bool_decide as Hin.
  - rewrite lookup_delete. by case_decide.
  - case_decide; [|done]. subst j.
    destruct (test_buffers st !! test_key data) eqn:E; [|done].
    exfalso. apply Hin. by eexists.
Qed.

Lemma cleanup_failed (data : dict) (st : state) (k : string) :
  k ∈ failed_tests (cleanup data st) ↔
  k ∈ failed_tests st ∧ (Elapsed data = None ∨ k ≠ test_key data).
Proof.
  unfold cleanup. destruct (Elapsed data); simpl.
  - rewrite elem_of_difference, elem_of_singleton.
    split; [intros [? ?]; split; [done | by right] | intros [? [?|?]]; done].
  - split; [intros ?; split; [done | by left] | tauto].
Qed.

Lemma cleanup_flag (data : dict) (st : state) :
  any_test_failed (cleanup data st) = any_test_failed st.
Proof. unfold cleanup. by destruct (Elapsed data). Qed.

Lemma process_flag (data : dict) (st : state) :
  any_test_failed (process data st).1 =
  Py.str_eq (action_of data) "fail" || any_test_failed st.
Proof.
  rewrite process_state, cleanup_flag. unfold after_fail.
  by rewrite on_fail_flag, buffer_output_flag.
Qed.

Lemma process_failed (data : dict) (st : state) (k : string) :
  k ∈ failed_tests (process data st).1 ↔
  ((action_of data = "fail" ∧ k = test_key data) ∨ k ∈ failed_tests st) ∧
  (Elapsed data = None ∨ k ≠ test_key data).
Proof. by rewrite process_state, cleanup_failed, after_fail_failed. Qed.

Lemma after_fail_lookup_other (data : dict) (st : state) (j : string) :
  test_key data ≠ j →
  test_buffers (after_fail data st) !! j = test_buffers st !! j.
Proof.
  intros Hne. unfold after_fail. rewrite on_fail_lookup.
  rewrite buffer_output_lookup. rewrite !decide_False by done.
  by destruct (Py.str_eq _ _).
Qed.

Lemma after_fail_lookup_own (data : dict) (st : state) :
  test_buffers (after_fail data st) !! test_key data =
  if Py.str_eq (action_of data) "fail"
  then Some (buffered st (test_key data) ++ appended data)
  else if Py.truthy (test_of data) && Py.truthy (output_of data)
       then Some (buffered st (test_key data) ++ [output_of data])
       else test_buffers st !! test_key data.
Proof.
  unfold after_fail. rewrite on_fail_lookup, buffer_output_buffered.
  rewrite buffer_output_lookup. rewrite !decide_True by done.
  by destruct (Py.str_eq _ _).
Qed.

Lemma process_lookup_other (data : dict) (st : state) (j : string) :
  test_key data ≠ j →
  test_buffers (process data st).1 !! j = test_buffers st !! j.
Proof.
  intros Hne. rewrite process_state, cleanup_lookup.
  rewrite after_fail_lookup_other by done.
  destruct (Elapsed data); [|done]. by rewrite decide_False.
Qed.

(** ** Facts about the loop *)

Lemma iteration_object (data : dict) (st : state) :
  iteration (Decoded (JObject data)) st =
  Next (process data st).1 (process data st).2.
Proof. simpl. by destruct (process data st). Qed.

(** A run that reaches the end of [front] goes on with [back]. *)
Lemma loop_app (front back : list input_line) (st mid : state)
    (written : list io_event) (code : Z) :
  loop front st = (written, mid, Returned code) →
  loop (front ++ back) st =
  (written ++ (loop back mid).1.1, (loop back mid).1.2, (loop back mid).2).
Proof.
  revert st written. induction front as [|line front IH]; intros st written H.
  - simpl in H. injection H as <- <- _. simpl. by destruct (loop back st) as [[? ?] ?].
  - simpl in *. destruct (iteration line st) as [st' w|e]; [|discriminate H].
    destruct (loop front st') as [[later final] e] eqn:E.
    injection H as <- <- ->.
    rewrite (IH st' later E). simpl. by rewrite app_assoc.
Qed.

Lemma replay_stderr_only (fragments : list string) :
  on_stream Stdout (replay fragments) = [].
Proof. induction fragments as [|f fragments IH]; [done | exact IH]. Qed.

Lemma on_stream_app (fd : stream) (a b : list io_event) :
  on_stream fd (a ++ b) = on_stream fd a ++ on_stream fd b.
Proof. unfold on_stream. by rewrite flat_map_app. Qed.

Lemma replay_app (a b : list string) : replay (a ++ b) = replay a ++ replay b.
Proof. unfold replay. by rewrite flat_map_app. Qed.

(** Once the flag is set, every continuation of the run ends with status 1:
    line 84 returns 1, and a traceback exits with 1 as well. *)
Lemma flag_set_status (lines : list input_line) (st : state) :
  any_test_failed st = true → exit_status (loop lines st).2 = 1%Z.
Proof.
  revert st. induction lines as [|line lines IH]; intros st Hflag; simpl.
  - by rewrite Hflag.
  - destruct (iteration line st) as [st' w|e] eqn:E; [|done].
    specialize (IH st'). destruct (loop lines st') as [[later final] e].
    apply IH. destruct line as [| |[]]; simpl in E; try congruence.
    rewrite (surjective_pairing (process data st)) in E. injection E as <- _.
    by rewrite process_flag, Hflag, orb_true_r.
Qed.

(** ** The routing of an event's own output *)

(** C1. For a decoded event with a non-empty output, what the event writes
    is the replay of lines 56 to 58 (which only writes to stderr) followed
    by exactly one write and flush of the fragment itself: red on stderr,
    and nothing on stdout, if the fragment contains FAIL; otherwise yellow
    on stderr if the key is in [failed_tests] at that point; otherwise
    light grey on stdout. *)
Theorem own_output_classified_once (data : dict) (st : state) :
  output_of data ≠ "" →
  let out := output_of data in
  let replayed := (on_fail data (buffer_output data st)).2 in
  let own := classify data (after_fail data st) in
  (process data st).2 = replayed ++ own ∧
  on_stream Stdout replayed = [] ∧
  (has_substring "FAIL" out →
     own = [Write Stderr (Colors.RED +:+ out +:+ Colors.RESET); Flush Stderr] ∧
     on_stream Stdout (process data st).2 = []) ∧
  (¬ has_substring "FAIL" out →
     test_key data ∈ failed_tests (after_fail data st) →
     own = [Write Stderr (Colors.YELLOW +:+ out +:+ Colors.RESET); Flush Stderr]) ∧
  (¬ has_substring "FAIL" out →
     test_key data ∉ failed_tests (after_fail data st) →
     own = [Write Stdout (Colors.LIGHT_GREY +:+ out +:+ Colors.RESET); Flush Stdout]).
Proof.
  intros Hout. cbv zeta.
  assert (Hw : (process data st).2 =
               (on_fail data (buffer_output data st)).2 ++
               classify data (after_fail data st)).
  { unfold process, after_fail. by destruct (on_fail _ _). }
  assert (Hr : on_stream Stdout (on_fail data (buffer_output data st)).2 = []).
  { rewrite on_fail_written.
    destruct (Py.str_eq _ _); [apply replay_stderr_only | done]. }
  apply truthy_true in Hout.
  split; [done|]. split; [done|].
  rewrite Hw, on_stream_app, Hr. unfold classify. rewrite Hout.
  split; [|split].
  - intros Hfail. apply contains_substring in Hfail. by rewrite Hfail.
  - intros Hfail Hin. apply contains_false in Hfail. rewrite Hfail.
    by rewrite bool_decide_eq_true_2.
  - intros Hfail Hin. apply contains_false in Hfail. rewrite Hfail.
    by rewrite bool_decide_eq_false_2.
Qed.

(** C2. When a run has reached a state [st] and the next line decodes to
    an event whose action is fail, the run writes next every fragment
    buffered in [st] under the event's key, in buffer order, each in yellow
    on stderr, whatever the text of the fragment; and the exit status of
    the whole run is 1 whatever lines follow. *)
Theorem fail_replays_buffer_and_fixes_status
    (before after : list input_line) (data : dict)
    (written : list io_event) (st : state) (code : Z) :
  main before = (written, st, Returned code) →
  action_of data = "fail" →
  (∃ rest,
     written_by (before ++ Decoded (JObject data) :: after) =
     written ++
     flat_map (fun fragment =>
                 [Write Stderr (Colors.YELLOW +:+ fragment +:+ Colors.RESET);
                  Flush Stderr])
              (buffered st (test_key data)) ++
     rest) ∧
  status_of (before ++ Decoded (JObject data) :: after) = 1%Z.
Proof.
  intros Hrun Hfail. unfold written_by, status_of, main in *.
  rewrite (loop_app _ (Decoded (JObject data) :: after) _ _ _ _ Hrun).
  cbn [fst snd]. change (loop (?l :: ?r) ?s) with
    (match iteration l s with
     | Next st' w => let '(later, final, e) := loop r st' in (w ++ later, final, e)
     | Raise e => ([], s, Traceback e)
     end).
  rewrite iteration_object.
  pose proof (flag_set_status after (process data st).1) as Hstatus.
  destruct (loop after (process data st).1) as [[later final] e].
  cbn [fst snd] in *. split.
  - rewrite process_written.
    apply str_eq_true in Hfail. rewrite Hfail, replay_app.
    exists (replay (appended data) ++ classify data (after_fail data st) ++ later).
    unfold replay, emit. by rewrite <- !app_assoc.
  - apply Hstatus. rewrite process_flag.
    apply str_eq_true in Hfail. by rewrite Hfail.
Qed.

(** C4. An event whose action is fail and whose test and output are both
    non-empty writes its fragment twice on stderr: in yellow as the last
    fragment of the replay of its buffer, then once more by lines 61 to 75,
    in red if the fragment contains FAIL and in yellow otherwise. *)
Theorem fail_line_written_twice (data : dict) (st : state) :
  action_of data = "fail" →
  test_of data ≠ "" →
  output_of data ≠ "" →
  let out := output_of data in
  ∃ colour,
    (has_substring "FAIL" out → colour = Colors.RED) ∧
    (¬ has_substring "FAIL" out → colour = Colors.YELLOW) ∧
    (process data st).2 =
      replay (buffered st (test_key data)) ++
      [Write Stderr (Colors.YELLOW +:+ out +:+ Colors.RESET); Flush Stderr] ++
      [Write Stderr (colour +:+ out +:+ Colors.RESET); Flush Stderr].
Proof.
  intros Hfail Htest Hout. cbv zeta.
  assert (Hin : test_key data ∈ failed_tests (after_fail data st)).
  { apply after_fail_failed. by left. }
  rewrite process_written. apply str_eq_true in Hfail. rewrite Hfail.
  apply truthy_true in Htest, Hout.
  unfold appended, classify. rewrite Htest, Hout. simpl.
  rewrite replay_app.
  exists (if Py.contains "FAIL" (output_of data)
          then Colors.RED else Colors.YELLOW).
  destruct (Py.contains "FAIL" (output_of data)) eqn:E.
  - apply contains_substring in E. split; [done|]. split; [tauto|].
    by rewrite <- app_assoc.
  - apply contains_false in E. split; [tauto|]. split; [done|].
    rewrite bool_decide_eq_true_2 by done. by rewrite <- app_assoc.
Qed.

Lemma own_output_classified_once_witness :
  output_of hard_fail_line ≠ "" ∧
  on_stream Stdout (process hard_fail_line initial).2 = [].
Proof.
  assert (H : output_of hard_fail_line ≠ "") by done.
  split; [exact H|].
  destruct (own_output_classified_once hard_fail_line initial H)
    as (_ & _ & Hred & _).
  apply Hred. by exists "--- ", ": t".
Defined.

Lemma fail_replays_buffer_and_fixes_status_witness :
  main (firstn 2 scenario_B) =
    (emit Stdout Colors.LIGHT_GREY ("boom" +:+ newline),
     {| test_buffers := {[ "p::t" := ["boom" +:+ newline] ]};
        failed_tests := ∅; any_test_failed := false |},
     Returned 0) ∧
  status_of (firstn 2 scenario_B ++
             Decoded (JObject hard_fail_line) :: [Blank]) = 1%Z.
Proof.
  assert (H : main (firstn 2 scenario_B) =
    (emit Stdout Colors.LIGHT_GREY ("boom" +:+ newline),
     {| test_buffers := {[ "p::t" := ["boom" +:+ newline] ]};
        failed_tests := ∅; any_test_failed := false |},
     Returned 0)) by (vm_compute; reflexivity).
  split; [exact H|].
  exact (proj2 (fail_replays_buffer_and_fixes_status
                  _ [Blank] hard_fail_line _ _ _ H eq_refl)).
Defined.

Lemma fail_line_written_twice_witness :
  action_of hard_fail_line = "fail" ∧
  test_of hard_fail_line ≠ "" ∧
  output_of hard_fail_line ≠ "" ∧
  ∃ colour,
    (process hard_fail_line initial).2 =
      [Write Stderr (Colors.YELLOW +:+ "--- FAIL: t" +:+ Colors.RESET);
       Flush Stderr;
       Write Stderr (colour +:+ "--- FAIL: t" +:+ Colors.RESET);
       Flush Stderr].
Proof.
  assert (Ht : test_of hard_fail_line ≠ "") by done.
  assert (Ho : output_of hard_fail_line ≠ "") by done.
  split; [reflexivity|]. split; [exact Ht|]. split; [exact Ho|].
  destruct (fail_line_written_twice hard_fail_line initial eq_refl Ht Ho)
    as (colour & _ & _ & Hw).
  exists colour. exact Hw.
Defined.

(** ** Scenarios A and C *)

(** The output of a passing test goes to stdout in light grey, and the
    status is 0. *)
Example scenario_A_written :
  main [ event "p" "t" "run" None None;
         event "p" "t" "output" (Some ("ok" +:+ newline)) None;
         event "p" "t" "pass" None (Some "0.01") ] =
  ([ Write Stdout (Colors.LIGHT_GREY +:+ "ok" +:+ newline +:+ Colors.RESET);
     Flush Stdout ],
   initial, Returned 0).
Proof. vm_compute. reflexivity. Qed.

(** A result line goes to stderr in red although its test never failed. *)
Example scenario_C_written :
  written_by [ event "p" "t" "output" (Some "--- FAIL: t") None ] =
  [ Write Stderr (Colors.RED +:+ "--- FAIL: t" +:+ Colors.RESET);
    Flush Stderr ].
Proof. vm_compute. reflexivity. Qed.

(** ** Scenario B *)

(** C3 as stated fails: stderr receives the fragment once, from the
    replay; the other copy went to stdout when the output event was read. *)
Lemma scenario_B_stderr_has_one_copy : ¬ scenario_B_as_specified.
Proof. intros [H _]. vm_compute in H. discriminate H. Qed.

(** C3, amended.  On scenario B the fragment is written once on stdout in
    light grey, when the output event is read, and once on stderr in
    yellow, when the fail event replays the buffer; the fail event has no
    output of its own, so lines 61 to 75 write nothing for it.  The exit
    status is 1. *)
Theorem scenario_B_written :
  written_by scenario_B =
    [ Write Stdout (Colors.LIGHT_GREY +:+ "boom" +:+ newline +:+ Colors.RESET);
      Flush Stdout;
      Write Stderr (Colors.YELLOW +:+ "boom" +:+ newline +:+ Colors.RESET);
      Flush Stderr ] ∧
  occurrences ("boom" +:+ newline) (on_stream Stderr (written_by scenario_B)) = 1 ∧
  occurrences ("boom" +:+ newline) (on_stream Stdout (written_by scenario_B)) = 1 ∧
  status_of scenario_B = 1%Z.
Proof. vm_compute. repeat split. Qed.

(** ** The exit status *)

(** The flag after a run is the flag before it, or some processed event
    had the fail action. *)
Lemma loop_flag (lines : list input_line) (st : state) :
  any_test_failed (loop lines st).1.2 =
  any_test_failed st ||
  existsb (fun data => Py.str_eq (action_of data) "fail") (processed lines).
Proof.
  revert st. induction lines as [|line lines IH]; intros st.
  - simpl. by rewrite orb_false_r.
  - destruct line as [| |value].
    + simpl. specialize (IH st). by destruct (loop lines st) as [[? ?] ?].
    + simpl. specialize (IH st). by destruct (loop lines st) as [[? ?] ?].
    + destruct value; try (simpl; by rewrite orb_false_r).
      change (loop (Decoded (JObject data) :: lines) st) with
        (match iteration (Decoded (JObject data)) st with
         | Next st' w =>
             let '(later, final, e) := loop lines st' in (w ++ later, final, e)
         | Raise e => ([], st, Traceback e)
         end).
      rewrite iteration_object. specialize (IH (process data st).1).
      destruct (loop lines (process data st).1) as [[later final] e].
      simpl in *. rewrite IH, process_flag.
      destruct (Py.str_eq _ _), (any_test_failed st); done.
Qed.

Lemma loop_returned_code (lines : list input_line) (st : state) (code : Z) :
  (loop lines st).2 = Returned code →
  code = (if any_test_failed (loop lines st).1.2 then 1 else 0)%Z.
Proof.
  revert st. induction lines as [|line lines IH]; intros st; simpl.
  - congruence.
  - destruct (iteration line st) as [st' w|e]; [|discriminate].
    specialize (IH st'). by destruct (loop lines st') as [[? ?] ?].
Qed.

(** On a run that reaches the end of its input, line 84 returns 1 exactly
    when some event had the fail action, and 0 otherwise. *)
Lemma status_of_completed_run (lines : list input_line) :
  reaches_end lines →
  (status_of lines = 1%Z ↔
     ∃ data, data ∈ processed lines ∧ action_of data = "fail") ∧
  (status_of lines = 0%Z ↔
     ¬ ∃ data, data ∈ processed lines ∧ action_of data = "fail").
Proof.
  intros [code Hend]. unfold status_of, main in *. rewrite Hend. simpl.
  apply loop_returned_code in Hend. rewrite loop_flag in Hend. simpl in Hend.
  assert (Hex : existsb (fun data => Py.str_eq (action_of data) "fail")
                  (processed lines) = true ↔
                ∃ data, data ∈ processed lines ∧ action_of data = "fail").
  { rewrite existsb_exists. split; intros (data & Hin & Hf); exists data.
    - by rewrite list_elem_of_In, <- str_eq_true.
    - by rewrite <- list_elem_of_In, str_eq_true. }
  destruct (existsb _ _); subst code.
  - pose proof (proj1 Hex eq_refl) as Hyes.
    split; [split; done | split; [done | intros Hno; by destruct Hno]].
  - assert (Hno : ¬ ∃ data, data ∈ processed lines ∧ action_of data = "fail")
      by (intros H; apply Hex in H; discriminate H).
    split; [split; [done | intros H; by destruct Hno] | split; done].
Qed.

(** C5.  The line [123] is valid JSON, so [json.loads] returns the number
    and [data.get] raises on it: the run processes no event at all, none
    with the fail action in particular, it does not reach the end of its
    input, and its exit status is 1. *)
Theorem status_1_without_fail_event :
  processed [Decoded (JNumber "123")] = [] ∧
  main [Decoded (JNumber "123")] = ([], initial, Traceback AttributeError) ∧
  status_of [Decoded (JNumber "123")] = 1%Z.
Proof. repeat split. Qed.

(** ** Lines that are not records *)

(** A line that [json.loads] rejects is skipped: nothing is written and
    the state is unchanged. *)
Lemma malformed_line_skipped (text : string) (st : state) :
  iteration (Malformed text) st = Next st [].
Proof. reflexivity. Qed.

Lemma malformed_line_continues (text : string) (rest : list input_line)
    (st : state) :
  loop (Malformed text :: rest) st = loop rest st.
Proof. simpl. by destruct (loop rest st) as [[? ?] ?]. Qed.

(** C7.  A line that is valid JSON but not an object is not skipped:
    [data.get] raises [AttributeError], the loop stops there and the lines
    after it are never read.  Here the fail event of the second line has no
    effect on the state and the run ends in a traceback. *)
Theorem non_object_line_aborts (value : json) (rest : list input_line)
    (st : state) :
  match value with
  | JObject _ => True
  | _ => iteration (Decoded value) st = Raise AttributeError ∧
         loop (Decoded value :: rest) st = ([], st, Traceback AttributeError)
  end ∧
  main [Decoded (JString "ok"); Decoded (JObject hard_fail_line)] =
    ([], initial, Traceback AttributeError).
Proof. split; [by destruct value | reflexivity]. Qed.

(** ** The state across a run *)

(** The state a run stops in is the state after its processed events. *)
Lemma loop_final (lines : list input_line) (st : state) :
  (loop lines st).1.2 =
  foldl (fun st data => (process data st).1) st (processed lines).
Proof.
  revert st. induction lines as [|line lines IH]; intros st; [done|].
  destruct line as [| |value].
  - simpl. specialize (IH st). by destruct (loop lines st) as [[? ?] ?].
  - simpl. specialize (IH st). by destruct (loop lines st) as [[? ?] ?].
  - destruct value; try done.
    change (loop (Decoded (JObject data) :: lines) st) with
      (match iteration (Decoded (JObject data)) st with
       | Next st' w =>
           let '(later, final, e) := loop lines st' in (w ++ later, final, e)
       | Raise e => ([], st, Traceback e)
       end).
    rewrite iteration_object. specialize (IH (process data st).1).
    by destruct (loop lines (process data st).1) as [[later final] e].
Qed.

(** C10.  An event changes the buffer and the membership in
    [failed_tests] of its own key only, and never clears the flag. *)
Theorem process_frame (data : dict) (st : state) :
  (∀ k, k ≠ test_key data →
     test_buffers (process data st).1 !! k = test_buffers st !! k ∧
     (k ∈ failed_tests (process data st).1 ↔ k ∈ failed_tests st)) ∧
  (any_test_failed st = true → any_test_failed (process data st).1 = true).
Proof.
  split.
  - intros k Hne. split.
    + by apply process_lookup_other.
    + rewrite process_failed. tauto.
  - intros Hflag. by rewrite process_flag, Hflag, orb_true_r.
Qed.

(** Events of other keys leave a key as it is. *)
Lemma other_keys_frame (k : string) (events : list dict) (st : state) :
  Forall (fun data => test_key data ≠ k) events →
  let final := foldl (fun st data => (process data st).1) st events in
  test_buffers final !! k = test_buffers st !! k ∧
  (k ∈ failed_tests final ↔ k ∈ failed_tests st).
Proof.
  intros Hall. revert st.
  induction Hall as [|data events Hne _ IH]; intros st; [done|].
  simpl. destruct (IH (process data st).1) as [-> ->].
  split.
  - by apply process_lookup_other.
  - rewrite process_failed. split; [intros [[[_ ?]|?] _]; done | intros ?].
    split; [by right | right; congruence].
Qed.

(** ** Completion *)

(** C6.  After an event that has an [Elapsed] key, whatever its value, the
    event's key has no entry in [test_buffers] and is not in
    [failed_tests].  This still holds after any further lines whose events
    have other keys, so that the next event with this key finds no buffered
    fragment and, when its output is non-empty and without FAIL and its
    action is not fail, writes it in light grey on stdout and nothing
    else. *)
Theorem completion_clears_key
    (data : dict) (elapsed : string) (st : state)
    (between : list input_line) (later : dict) :
  Elapsed data = Some elapsed →
  Forall (fun other => test_key other ≠ test_key data) (processed between) →
  test_key later = test_key data →
  let finished := (process data st).1 in
  let reached := (loop between finished).1.2 in
  test_buffers finished !! test_key data = None ∧
  (test_key data ∉ failed_tests finished) ∧
  test_buffers reached !! test_key later = None ∧
  (test_key later ∉ failed_tests reached) ∧
  (output_of later ≠ "" →
   ¬ has_substring "FAIL" (output_of later) →
   action_of later ≠ "fail" →
   (process later reached).2 =
     [Write Stdout (Colors.LIGHT_GREY +:+ output_of later +:+ Colors.RESET);
      Flush Stdout]).
Proof.
  intros Hel Hothers Hkey. cbv zeta.
  assert (Hbuf : test_buffers (process data st).1 !! test_key data = None).
  { rewrite process_state, cleanup_lookup, Hel. by rewrite decide_True. }
  assert (Hnot : test_key data ∉ failed_tests (process data st).1).
  { rewrite process_failed, Hel. intros [_ [?|?]]; done. }
  rewrite loop_final.
  destruct (other_keys_frame _ _ (process data st).1 Hothers) as [Hb Hf].
  cbv zeta in Hb, Hf. rewrite Hkey, Hb.
  split; [done|]. split; [done|]. split; [done|]. split; [by rewrite Hf|].
  intros Hout Hnofail Hact.
  rewrite process_written.
  assert (Py.str_eq (action_of later) "fail" = false) as ->.
  { destruct (Py.str_eq _ _) eqn:E; [|done]. by apply str_eq_true in E. }
  simpl. unfold classify.
  apply truthy_true in Hout. apply contains_false in Hnofail.
  rewrite Hout, Hnofail. rewrite bool_decide_eq_false_2; [done|].
  rewrite after_fail_failed, Hkey, Hf. intros [[? _]|?]; done.
Qed.

Lemma completion_clears_key_witness :
  let pass := {| Package := Some "p"; Test := Some "t"; Action := Some "pass";
                 Output := None; Elapsed := Some "0.01" |} in
  let again := {| Package := Some "p"; Test := Some "t"; Action := Some "output";
                  Output := Some "ok"; Elapsed := None |} in
  Elapsed pass = Some "0.01" ∧
  Forall (fun other => test_key other ≠ test_key pass)
         (processed [Blank; event "q" "u" "fail" (Some "x") None]) ∧
  test_key again = test_key pass ∧
  test_key pass ∉ failed_tests (process pass initial).1.
Proof.
  cbv zeta.
  assert (Hothers :
    Forall (fun other => test_key other ≠
              test_key {| Package := Some "p"; Test := Some "t";
                          Action := Some "pass"; Output := None;
                          Elapsed := Some "0.01" |})
           (processed [Blank; event "q" "u" "fail" (Some "x") None])).
  { repeat constructor. done. }
  split; [reflexivity|]. split; [exact Hothers|]. split; [reflexivity|].
  exact (proj1 (proj2 (completion_clears_key
           {| Package := Some "p"; Test := Some "t"; Action := Some "pass";
              Output := None; Elapsed := Some "0.01" |}
           "0.01" initial
           [Blank; event "q" "u" "fail" (Some "x") None]
           {| Package := Some "p"; Test := Some "t"; Action := Some "output";
              Output := Some "ok"; Elapsed := None |}
           eq_refl Hothers eq_refl))).
Defined.

(** ** Membership in [failed_tests] *)

(** C9.  Across one iteration of the loop, a key enters [failed_tests]
    only when the line is an event of that key with the fail action, and
    leaves it only when the line is an event of that key with an [Elapsed]
    key. *)
Theorem failed_set_transitions
    (line : input_line) (st st' : state) (written : list io_event)
    (k : string) :
  iteration line st = Next st' written →
  (k ∉ failed_tests st → k ∈ failed_tests st' →
     ∃ data, line = Decoded (JObject data) ∧
             action_of data = "fail" ∧ test_key data = k) ∧
  (k ∈ failed_tests st → k ∉ failed_tests st' →
     ∃ data elapsed, line = Decoded (JObject data) ∧
                     Elapsed data = Some elapsed ∧ test_key data = k).
Proof.
  intros Hstep. destruct line as [| |value].
  - injection Hstep as <- _. split; intros ? ?; done.
  - injection Hstep as <- _. split; intros ? ?; done.
  - destruct value; try discriminate Hstep.
    rewrite iteration_object in Hstep. injection Hstep as <- _.
    split.
    + intros Hout Hin. apply process_failed in Hin as [[[Hf ->]|?] _]; [|done].
      by exists data.
    + intros Hin Hout. rewrite process_failed in Hout.
      destruct (Elapsed data) as [elapsed|] eqn:Hel.
      * destruct (decide (k = test_key data)) as [->|Hne].
        -- by exists data, elapsed.
        -- destruct Hout. split; [by right | by right].
      * destruct Hout. split; [by right | by left].
Qed.

Lemma failed_set_transitions_witness :
  iteration (Decoded (JObject hard_fail_line)) initial =
    Next (process hard_fail_line initial).1 (process hard_fail_line initial).2 ∧
  ∃ data, Decoded (JObject hard_fail_line) = Decoded (JObject data) ∧
          action_of data = "fail" ∧ test_key data = "p::t".
Proof.
  split; [apply iteration_object|].
  apply (failed_set_transitions _ initial (process hard_fail_line initial).1
           (process hard_fail_line initial).2 "p::t"
           (iteration_object hard_fail_line initial)).
  - apply not_elem_of_empty.
  - apply process_failed. split; [left; split; reflexivity | left; reflexivity].
Defined.

(** ** Entries of [test_buffers] *)

Lemma process_entry_origin (data : dict) (st : state) (k : string) :
  is_Some (test_buffers (process data st).1 !! k) →
  is_Some (test_buffers st !! k) ∨
  (test_key data = k ∧
   ((test_of data ≠ "" ∧ output_of data ≠ "") ∨ action_of data = "fail")).
Proof.
  destruct (decide (test_key data = k)) as [<-|Hne].
  - rewrite process_state, cleanup_lookup.
    destruct (Elapsed data).
    + rewrite decide_True by done. by intros [? ?].
    + rewrite after_fail_lookup_own.
      destruct (Py.str_eq (action_of data) "fail") eqn:Ef.
      * apply str_eq_true in Ef. intros _. right. split; [done | by right].
      * destruct (Py.truthy (test_of data)) eqn:Et,
                 (Py.truthy (output_of data)) eqn:Eo; simpl; try (by left).
        apply truthy_true in Et, Eo. intros _. right. split; [done | by left].
  - rewrite process_lookup_other by done. by left.
Qed.

Lemma process_fragment_origin (data : dict) (st : state) (k : string) :
  buffered (process data st).1 k ≠ [] →
  buffered st k ≠ [] ∨
  (test_key data = k ∧ test_of data ≠ "" ∧ output_of data ≠ "").
Proof.
  unfold buffered at 1. destruct (decide (test_key data = k)) as [<-|Hne].
  - rewrite process_state, cleanup_lookup.
    destruct (Elapsed data).
    + by rewrite decide_True.
    + rewrite after_fail_lookup_own. unfold appended.
      destruct (Py.truthy (test_of data)) eqn:Et,
               (Py.truthy (output_of data)) eqn:Eo; simpl;
        try (apply truthy_true in Et, Eo; intros _; by right);
        (destruct (Py.str_eq _ _); simpl; [rewrite app_nil_r | ]; by left).
  - rewrite process_lookup_other by done. by left.
Qed.

(** C8 as stated fails: a fail event without test and output leaves an
    empty entry under its key. *)
Lemma fail_creates_empty_entry : ¬ entries_only_appended [package_fail].
Proof.
  intros H. destruct (H "p") as (data & Hin & _ & Htest & _).
  - vm_compute. by eexists.
  - apply list_elem_of_singleton in Hin. subst data. by apply Htest.
Qed.

(** C8, amended.  In the state a run has reached, a key has an entry in
    [test_buffers] only if some processed event of that key had both a
    non-empty test and a non-empty output, or had the fail action: the
    replay subscripts the defaultdict and so stores an empty list under a
    missing key.  An entry that holds a fragment comes from an event of the
    key with non-empty test and output. *)
Theorem buffer_entry_origin (lines : list input_line) (k : string) :
  (is_Some (test_buffers (main lines).1.2 !! k) →
     ∃ data, data ∈ processed lines ∧ test_key data = k ∧
             ((test_of data ≠ "" ∧ output_of data ≠ "") ∨
              action_of data = "fail")) ∧
  (buffered (main lines).1.2 k ≠ [] →
     ∃ data, data ∈ processed lines ∧ test_key data = k ∧
             test_of data ≠ "" ∧ output_of data ≠ "").
Proof.
  unfold main. rewrite loop_final.
  assert (Hgen : ∀ events st,
    let final := foldl (fun st data => (process data st).1) st events in
    (is_Some (test_buffers final !! k) →
       is_Some (test_buffers st !! k) ∨
       ∃ data, data ∈ events ∧ test_key data = k ∧
               ((test_of data ≠ "" ∧ output_of data ≠ "") ∨
                action_of data = "fail")) ∧
    (buffered final k ≠ [] →
       buffered st k ≠ [] ∨
       ∃ data, data ∈ events ∧ test_key data = k ∧
               test_of data ≠ "" ∧ output_of data ≠ "")).
  { induction events as [|data events IH]; intros st; simpl.
    - split; intros ?; by left.
    - destruct (IH (process data st).1) as [IH1 IH2]. split.
      + intros Hs. destruct (IH1 Hs) as [Hp|(d & Hin & Hd)].
        * destruct (process_entry_origin _ _ _ Hp) as [?|[? ?]]; [by left|].
          right. exists data. split; [apply list_elem_of_here | done].
        * right. exists d. split; [by apply list_elem_of_further | done].
      + intros Hs. destruct (IH2 Hs) as [Hp|(d & Hin & Hd)].
        * destruct (process_fragment_origin _ _ _ Hp) as [?|[? ?]]; [by left|].
          right. exists data. split; [apply list_elem_of_here | done].
        * right. exists d. split; [by apply list_elem_of_further | done]. }
  destruct (Hgen (processed lines) initial) as [H1 H2]. split.
  - intros Hs. destruct (H1 Hs) as [[? Hp]|?]; [|done].
    simpl in Hp. by rewrite lookup_empty in Hp.
  - intros Hs. destruct (H2 Hs) as [Hp|?]; [|done].
    by destruct Hp.
Qed.

(** ** The loop, line by line *)

Lemma loop_skipped (line : input_line) (rest : list input_line) (st : state) :
  skipped line = true → loop (line :: rest) st = loop rest st.
Proof.
  intros H. destruct line; try discriminate H; simpl;
    by destruct (loop rest st) as [[? ?] ?].
Qed.

Lemma loop_object (data : dict) (rest : list input_line) (st : state) :
  loop (Decoded (JObject data) :: rest) st =
  ((process data st).2 ++ (loop rest (process data st).1).1.1,
   (loop rest (process data st).1).1.2,
   (loop rest (process data st).1).2).
Proof.
  change (loop (Decoded (JObject data) :: rest) st) with
    (match iteration (Decoded (JObject data)) st with
     | Next st' w =>
         let '(later, final, e) := loop rest st' in (w ++ later, final, e)
     | Raise e => ([], st, Traceback e)
     end).
  rewrite iteration_object.
  by destruct (loop rest (process data st).1) as [[? ?] ?].
Qed.

Lemma loop_cases (line : input_line) (rest : list input_line) (st : state) :
  (skipped line = true ∧ loop (line :: rest) st = loop rest st) ∨
  (∃ data, line = Decoded (JObject data)) ∨
  (skipped line = false ∧ processed (line :: rest) = [] ∧
   loop (line :: rest) st = ([], st, Traceback AttributeError)).
Proof.
  destruct line as [| |value].
  - left. split; [done | by apply loop_skipped].
  - left. split; [done | by apply loop_skipped].
  - destruct value; try (right; right; done).
    right. left. by eexists.
Qed.

Lemma final_after_events (lines : list input_line) :
  (main lines).1.2 = after_events (processed lines) initial.
Proof. unfold main, after_events. apply loop_final. Qed.

(** ** Lines the loop passes over *)

(** X1.  Blank lines and lines that [json.loads] rejects have no effect at
    all: a run on the input without them writes the same, stops in the same
    state and ends the same way. *)
Theorem skipped_lines_transparent (lines : list input_line) :
  main (List.filter (fun line => negb (skipped line)) lines) = main lines.
Proof.
  unfold main. generalize initial.
  induction lines as [|line lines IH]; intros st; [done|].
  destruct (loop_cases line lines st) as [[Hs Hl]|[[data ->]|(Hs & Hp & Hl)]].
  - rewrite Hl. cbn [List.filter]. rewrite Hs. apply IH.
  - cbn [List.filter skipped negb]. rewrite !loop_object. by rewrite IH.
  - rewrite Hl. cbn [List.filter]. rewrite Hs. cbn [negb].
    destruct line as [| |value]; try discriminate Hs.
    destruct value; try reflexivity. discriminate Hp.
Qed.

(** ** What a fail event writes *)

(** X2.  An event whose action is fail writes nothing to stdout: the
    replay goes to stderr, and the event's own output is red or, the key
    having just been added to [failed_tests], yellow. *)
Theorem fail_event_silent_on_stdout (data : dict) (st : state) :
  action_of data = "fail" →
  on_stream Stdout (process data st).2 = [].
Proof.
  intros Hfail.
  assert (Hin : test_key data ∈ failed_tests (after_fail data st)).
  { apply after_fail_failed. by left. }
  rewrite process_written, on_stream_app.
  apply str_eq_true in Hfail. rewrite Hfail, replay_stderr_only.
  unfold classify. rewrite (bool_decide_eq_true_2 _ Hin).
  by destruct (Py.truthy (output_of data)),
              (Py.contains "FAIL" (output_of data)).
Qed.

Lemma fail_event_silent_on_stdout_witness :
  action_of hard_fail_line = "fail" ∧
  on_stream Stdout (process hard_fail_line initial).2 = [].
Proof.
  split; [reflexivity|].
  apply (fail_event_silent_on_stdout hard_fail_line initial). reflexivity.
Defined.

(** ** The exit status, for every run *)

(** X3.  The exit status is 0 or 1, and it is 0 exactly when the run
    reached the end of its input and no processed event had the fail
    action. *)
Theorem status_zero_iff (lines : list input_line) :
  (status_of lines = 0%Z ∨ status_of lines = 1%Z) ∧
  (status_of lines = 0%Z ↔
   reaches_end lines ∧
   ¬ ∃ data, data ∈ processed lines ∧ action_of data = "fail").
Proof.
  destruct ((main lines).2) as [code|e] eqn:Hend.
  - assert (Hr : reaches_end lines) by (by exists code).
    destruct (status_of_completed_run lines Hr) as [H1 H0].
    assert (Hcode : status_of lines = 0%Z ∨ status_of lines = 1%Z).
    { unfold status_of. rewrite Hend. simpl. unfold main in Hend.
      apply loop_returned_code in Hend. subst code.
      destruct (any_test_failed _); [by right | by left]. }
    split; [done|]. rewrite H0. tauto.
  - assert (Hs : status_of lines = 1%Z) by (unfold status_of; by rewrite Hend).
    split; [by right|]. rewrite Hs. split; [done|].
    intros [[code Hr] _]. congruence.
Qed.

(** ** The form of everything that is written *)

Lemma appended_nonempty (data : dict) :
  Forall (fun fragment => fragment ≠ "") (appended data).
Proof.
  unfold appended.
  destruct (Py.truthy (test_of data)); simpl; [|constructor].
  destruct (Py.truthy (output_of data)) eqn:E; [|constructor].
  apply truthy_true in E. by repeat constructor.
Qed.

Lemma buffered_nonempty (st : state) (k : string) :
  fragments_nonempty st →
  Forall (fun fragment => fragment ≠ "") (buffered st k).
Proof.
  intros H. unfold buffered.
  destruct (test_buffers st !! k) as [fragments|] eqn:E; simpl.
  - by apply (H k).
  - constructor.
Qed.

Lemma process_keeps_nonempty (data : dict) (st : state) :
  fragments_nonempty st → fragments_nonempty (process data st).1.
Proof.
  intros H k fragments.
  destruct (decide (test_key data = k)) as [<-|Hne].
  - rewrite process_state, cleanup_lookup.
    destruct (Elapsed data); [by rewrite decide_True|].
    rewrite after_fail_lookup_own.
    pose proof (buffered_nonempty st (test_key data) H) as Hb.
    pose proof (appended_nonempty data) as Ha. unfold appended in *.
    destruct (Py.str_eq (action_of data) "fail").
    + intros [= <-]. by apply Forall_app.
    + destruct (Py.truthy (test_of data) && Py.truthy (output_of data)).
      * intros [= <-]. by apply Forall_app.
      * apply H.
  - rewrite process_lookup_other by done. apply H.
Qed.

Lemma replay_chunks (fragments : list string) :
  Forall (fun fragment => fragment ≠ "") fragments →
  ∃ chunks, replay fragments = flat_map chunk chunks ∧ Forall coloured chunks.
Proof.
  induction 1 as [|fragment fragments Hne _ (chunks & Heq & Hall)].
  - by exists [].
  - exists ((Stderr, Colors.YELLOW +:+ fragment +:+ Colors.RESET) :: chunks).
    split.
    + unfold replay in *. simpl. by rewrite Heq.
    + constructor; [by apply coloured_yellow | done].
Qed.

Lemma classify_chunks (data : dict) (st : state) :
  ∃ chunks, classify data st = flat_map chunk chunks ∧ Forall coloured chunks.
Proof.
  unfold classify. destruct (Py.truthy (output_of data)) eqn:Eo.
  - apply truthy_true in Eo.
    destruct (Py.contains "FAIL" (output_of data)) eqn:Ef.
    + apply contains_substring in Ef.
      exists [(Stderr, Colors.RED +:+ output_of data +:+ Colors.RESET)].
      split; [done|]. repeat constructor. done.
    + apply contains_false in Ef. case_bool_decide.
      * exists [(Stderr, Colors.YELLOW +:+ output_of data +:+ Colors.RESET)].
        split; [done|]. repeat constructor. done.
      * exists [(Stdout, Colors.LIGHT_GREY +:+ output_of data +:+ Colors.RESET)].
        split; [done|]. repeat constructor; done.
  - by exists [].
Qed.

Lemma process_chunks (data : dict) (st : state) :
  fragments_nonempty st →
  ∃ chunks, (process data st).2 = flat_map chunk chunks ∧
            Forall coloured chunks.
Proof.
  intros H. rewrite process_written.
  destruct (classify_chunks data (after_fail data st)) as (own & -> & Hown).
  destruct (Py.str_eq (action_of data) "fail").
  - destruct (replay_chunks (buffered st (test_key data) ++ appended data))
      as (replayed & -> & Hreplayed).
    { apply Forall_app. split;
        [by apply buffered_nonempty | apply appended_nonempty]. }
    exists (replayed ++ own). split; [by rewrite flat_map_app|].
    by apply Forall_app.
  - by exists own.
Qed.

Lemma loop_chunks (lines : list input_line) (st : state) :
  fragments_nonempty st →
  ∃ chunks, (loop lines st).1.1 = flat_map chunk chunks ∧
            Forall coloured chunks.
Proof.
  revert st. induction lines as [|line lines IH]; intros st H.
  - by exists [].
  - destruct (loop_cases line lines st) as [[_ ->]|[[data ->]|(_ & _ & ->)]].
    + by apply IH.
    + rewrite loop_object. cbn [fst snd].
      destruct (process_chunks data st H) as (now & -> & Hnow).
      destruct (IH _ (process_keeps_nonempty data st H)) as (later & -> & Hlater).
      exists (now ++ later). split; [by rewrite flat_map_app|].
      by apply Forall_app.
    + by exists [].
Qed.

Lemma initial_fragments_nonempty : fragments_nonempty initial.
Proof. intros k fragments. simpl. by rewrite lookup_empty. Qed.

Lemma after_events_nonempty (events : list dict) (st : state) :
  fragments_nonempty st → fragments_nonempty (after_events events st).
Proof.
  revert st. induction events as [|data events IH]; intros st H; [done|].
  apply IH. by apply process_keeps_nonempty.
Qed.

(** X4.  Whatever the input, what a run writes is a sequence of writes,
    each followed at once by the flush of its stream, and each text has one
    of three forms: on stdout a non-empty fragment without FAIL between the
    light grey code and the reset code; on stderr a fragment with FAIL
    between the red code and the reset code, or a non-empty fragment between
    the yellow code and the reset code. *)
Theorem every_write_coloured_and_flushed (lines : list input_line) :
  ∃ chunks : list (stream * string),
    written_by lines = flat_map chunk chunks ∧ Forall coloured chunks.
Proof. apply loop_chunks, initial_fragments_nonempty. Qed.

(** X5.  No buffer ever holds an empty fragment. *)
Theorem buffers_hold_nonempty_fragments (lines : list input_line) (k : string) :
  Forall (fun fragment => fragment ≠ "") (buffered (main lines).1.2 k).
Proof.
  rewrite final_after_events.
  apply buffered_nonempty, after_events_nonempty, initial_fragments_nonempty.
Qed.

(** ** What a buffer holds *)

Lemma process_buffered (data : dict) (st : state) (k : string) :
  buffered (process data st).1 k =
  if decide (test_key data = k)
  then match Elapsed data with
       | Some _ => []
       | None => buffered st k ++ appended data
       end
  else buffered st k.
Proof.
  unfold buffered at 1. case_decide as Hk.
  - subst k. rewrite process_state, cleanup_lookup.
    destruct (Elapsed data); [by rewrite decide_True|].
    rewrite after_fail_lookup_own. unfold appended.
    destruct (Py.str_eq (action_of data) "fail"); [done|].
    destruct (Py.truthy (test_of data) && Py.truthy (output_of data)); [done|].
    by rewrite app_nil_r.
  - by rewrite process_lookup_other.
Qed.

Lemma after_events_app (front back : list dict) (st : state) :
  after_events (front ++ back) st = after_events back (after_events front st).
Proof. unfold after_events. apply foldl_app. Qed.

Lemma buffered_grows (k : string) (events : list dict) (st : state) :
  Forall (keeps k) events →
  buffered (after_events events st) k =
  buffered st k ++ flat_map (own_fragments k) events.
Proof.
  intros Hall. revert st.
  induction Hall as [|data events Hkeep _ IH]; intros st.
  - simpl. by rewrite app_nil_r.
  - change (after_events (data :: events) st)
      with (after_events events (process data st).1).
    rewrite IH, process_buffered. simpl. unfold own_fragments at 2.
    case_decide as Hk; [|done].
    rewrite (Hkeep Hk). by rewrite app_assoc.
Qed.

(** X6.  The buffer of a key holds, in order, the outputs of the events of
    that key which had a non-empty test and a non-empty output and were
    processed since the last event of the key with an [Elapsed] key, or
    since the start when there was none.  Events of other keys and fail
    actions change nothing in it: the replay does not empty the buffer. *)
Theorem buffer_since_last_completion
    (lines : list input_line) (k : string) (front back : list dict) :
  processed lines = front ++ back →
  front = [] ∨
    (∃ earlier data elapsed, front = earlier ++ [data] ∧
                             test_key data = k ∧ Elapsed data = Some elapsed) →
  Forall (keeps k) back →
  buffered (main lines).1.2 k = flat_map (own_fragments k) back.
Proof.
  intros Hsplit Hfront Hback.
  rewrite final_after_events, Hsplit, after_events_app.
  rewrite (buffered_grows k back _ Hback).
  assert (buffered (after_events front initial) k = []) as ->; [|done].
  destruct Hfront as [->|(earlier & data & elapsed & -> & Hk & Hel)]; [done|].
  rewrite after_events_app.
  change (after_events [data] ?st) with (process data st).1.
  rewrite process_buffered, decide_True by done. by rewrite Hel.
Qed.

Lemma buffer_since_last_completion_witness :
  let pass := {| Package := Some "p"; Test := Some "t"; Action := Some "pass";
                 Output := Some "a"; Elapsed := Some "0.01" |} in
  let out := {| Package := Some "p"; Test := Some "t"; Action := Some "output";
                Output := Some "b"; Elapsed := None |} in
  buffered (main [Decoded (JObject pass); Blank; Decoded (JObject out);
                  Decoded (JObject hard_fail_line)]).1.2 "p::t" =
  ["b"; "--- FAIL: t"].
Proof.
  cbv zeta.
  apply (buffer_since_last_completion
           [Decoded (JObject _); Blank; Decoded (JObject _);
            Decoded (JObject hard_fail_line)] "p::t"
           [{| Package := Some "p"; Test := Some "t"; Action := Some "pass";
               Output := Some "a"; Elapsed := Some "0.01" |}]
           [{| Package := Some "p"; Test := Some "t"; Action := Some "output";
               Output := Some "b"; Elapsed := None |}; hard_fail_line]).
  - reflexivity.
  - right. exists [], {| Package := Some "p"; Test := Some "t";
                         Action := Some "pass"; Output := Some "a";
                         Elapsed := Some "0.01" |}, "0.01".
    split; [reflexivity|]. split; reflexivity.
  - repeat constructor.
Defined.

(** ** Which keys are failed *)

Lemma after_events_snoc (events : list dict) (data : dict) (st : state) :
  after_events (events ++ [data]) st = (process data (after_events events st)).1.
Proof. by rewrite after_events_app. Qed.

Lemma failed_after_events (events : list dict) (k : string) :
  k ∈ failed_tests (after_events events initial) ↔
  ∃ front data back,
    events = front ++ data :: back ∧
    test_key data = k ∧ action_of data = "fail" ∧ Elapsed data = None ∧
    Forall (keeps k) back.
Proof.
  induction events as [|data events IH] using rev_ind.
  - simpl. split; [by intros ?%not_elem_of_empty|].
    intros (front & d & back & H & _). by destruct front.
  - rewrite after_events_snoc, process_failed, IH. split.
    + intros [[[Hf ->]|(front & d & back & -> & Hk & Hf & Hel & Hall)] Hkeep].
      * exists events, data, []. destruct Hkeep as [?|?]; [|done].
        repeat split; try done.
      * exists front, d, (back ++ [data]).
        split; [by rewrite <- app_assoc|]. repeat split; try done.
        apply Forall_app. split; [done|]. repeat constructor.
        intros Hd. destruct Hkeep as [?|?]; [done | congruence].
    + intros (front & d & back & Heq & Hk & Hf & Hel & Hall).
      destruct back as [|b back _] using rev_ind.
      * apply app_inj_tail in Heq as [-> ->]. split; [|by left].
        left. by split.
      * rewrite app_comm_cons, app_assoc in Heq.
        apply app_inj_tail in Heq as [-> ->].
        apply Forall_app in Hall as [Hall Hlast].
        apply Forall_inv in Hlast. split.
        -- right. by exists front, d, back.
        -- destruct (decide (test_key b = k)) as [Hb|Hb];
             [left; by apply Hlast | right; congruence].
Qed.

(** X7.  After a run a key is in [failed_tests] exactly when some
    processed event of that key had the fail action and no [Elapsed] key,
    and no later processed event of the key had an [Elapsed] key. *)
Theorem failed_iff_fail_not_completed (lines : list input_line) (k : string) :
  k ∈ failed_tests (main lines).1.2 ↔
  ∃ front data back,
    processed lines = front ++ data :: back ∧
    test_key data = k ∧ action_of data = "fail" ∧ Elapsed data = None ∧
    Forall (keeps k) back.
Proof. rewrite final_after_events. apply failed_after_events. Qed.

(** X10.  When every fail event carries an [Elapsed] key, as the events
    of [go test -json] do, [failed_tests] is empty after every line: the
    yellow branch of lines 68 to 70 is then taken only by the output of a
    fail event itself. *)
Theorem failed_empty_when_fail_has_elapsed (lines : list input_line) :
  (∀ data, data ∈ processed lines →
           action_of data = "fail" → Elapsed data ≠ None) →
  failed_tests (main lines).1.2 = ∅.
Proof.
  intros Hall. apply set_eq. intros k. rewrite final_after_events.
  split; [|by intros ?%not_elem_of_empty].
  intros (front & data & back & Heq & _ & Hf & Hel & _)%failed_after_events.
  destruct (Hall data); [|done..].
  rewrite Heq. apply elem_of_app. right. apply list_elem_of_here.
Qed.

Lemma failed_empty_when_fail_has_elapsed_witness :
  failed_tests (main scenario_B).1.2 = ∅.
Proof.
  apply failed_empty_when_fail_has_elapsed.
  intros data Hin Hfail. simpl in Hin.
  repeat (apply elem_of_cons in Hin as [->|Hin]; [try discriminate Hfail|]).
  - discriminate.
  - by apply not_elem_of_nil in Hin.
Defined.

(** ** Runs without a fail event *)

(** X8.  When no processed event has the fail action, [failed_tests]
    stays empty and every event is routed by its text alone, as the first
    event of a run would be: its output goes to stderr in red when it
    contains FAIL and to stdout in light grey otherwise, and nothing else
    is written. *)
Theorem run_without_fail_event (lines : list input_line) :
  (∀ data, data ∈ processed lines → action_of data ≠ "fail") →
  written_by lines =
    flat_map (fun data => classify data initial) (processed lines) ∧
  failed_tests (main lines).1.2 = ∅.
Proof.
  unfold written_by, main.
  assert (Hgen : ∀ st,
    failed_tests st = ∅ →
    (∀ data, data ∈ processed lines → action_of data ≠ "fail") →
    (loop lines st).1.1 =
      flat_map (fun data => classify data initial) (processed lines) ∧
    failed_tests (loop lines st).1.2 = ∅).
  { induction lines as [|line lines IH]; intros st Hempty Hnofail; [done|].
    destruct (loop_cases line lines st) as [[Hs ->]|[[data ->]|(_ & -> & ->)]].
    - destruct line; try discriminate Hs; by apply IH.
    - rewrite loop_object. cbn [fst snd processed flat_map].
      assert (Hact : action_of data ≠ "fail")
        by (apply Hnofail; simpl; apply list_elem_of_here).
      assert (Hstr : Py.str_eq (action_of data) "fail" = false).
      { destruct (Py.str_eq _ _) eqn:E; [|done]. by apply str_eq_true in E. }
      assert (Hafter : failed_tests (after_fail data st) = ∅).
      { unfold after_fail.
        by rewrite on_fail_failed, Hstr, buffer_output_failed. }
      assert (Hnext : failed_tests (process data st).1 = ∅).
      { apply set_eq. intros k. rewrite process_failed, Hempty.
        split; [intros [[[? _]|?] _]; done | by intros ?%not_elem_of_empty]. }
      destruct (IH (process data st).1 Hnext) as [-> ->].
      { intros d Hd. apply Hnofail. simpl. by apply list_elem_of_further. }
      split; [|done]. f_equal. rewrite process_written, Hstr. simpl.
      unfold classify. by rewrite Hafter.
    - done. }
  by apply Hgen.
Qed.

Lemma run_without_fail_event_witness :
  written_by [event "p" "t" "output" (Some "ok") None; Malformed "junk"] =
    emit Stdout Colors.LIGHT_GREY "ok".
Proof.
  refine (proj1 (run_without_fail_event
            [event "p" "t" "output" (Some "ok") None; Malformed "junk"] _)).
  intros data Hin. apply list_elem_of_singleton in Hin. by subst data.
Defined.

(** ** Keys *)

Lemma substring_skip (needle : string) (c : ascii) (s : string) :
  has_substring needle s → has_substring needle (String c s).
Proof.
  intros (before & after & ->). exists (String c before), after.
  by rewrite append_cons.
Qed.

Lemma split_at_colon (p1 p2 r1 r2 : string) :
  ¬ has_substring ":" p1 → ¬ has_substring ":" p2 →
  p1 +:+ String ":" r1 = p2 +:+ String ":" r2 →
  p1 = p2 ∧ r1 = r2.
Proof.
  revert p2. induction p1 as [|a p1 IH]; intros [|b p2] H1 H2 Heq.
  - injection Heq as ->. done.
  - rewrite append_cons in Heq. injection Heq as <- _.
    destruct H2. by exists "", p2.
  - rewrite append_cons in Heq. injection Heq as -> _.
    destruct H1. by exists "", p1.
  - rewrite !append_cons in Heq. injection Heq as -> Heq.
    destruct (IH p2) as [-> ->]; try done.
    + intros H. apply H1. by apply substring_skip.
    + intros H. apply H2. by apply substring_skip.
Qed.

(** X9.  When the package names hold no colon, two events have the same
    key only if they have the same package and the same test (an absent
    test and an empty test being the same): the buffers and the failed
    marks of different tests are never mixed up. *)
Theorem test_key_injective (d1 d2 : dict) :
  ¬ has_substring ":" (package_of d1) →
  ¬ has_substring ":" (package_of d2) →
  test_key d1 = test_key d2 →
  package_of d1 = package_of d2 ∧ test_of d1 = test_of d2.
Proof.
  intros H1 H2. unfold test_key.
  destruct (Py.truthy (test_of d1)) eqn:E1, (Py.truthy (test_of d2)) eqn:E2.
  - intros Heq.
    change (?p +:+ "::" +:+ ?t) with (p +:+ String ":" (String ":" t)) in Heq.
    destruct (split_at_colon _ _ _ _ H1 H2 Heq) as [Hp Ht].
    split; [done | congruence].
  - intros Heq. destruct H2. rewrite <- Heq.
    by exists (package_of d1), (String ":" (test_of d1)).
  - intros Heq. destruct H1. rewrite Heq.
    by exists (package_of d2), (String ":" (test_of d2)).
  - apply truthy_false_empty in E1, E2. intros ->. split; [done | congruence].
Qed.

Lemma test_key_injective_witness :
  let d1 := {| Package := Some "p"; Test := Some "t"; Action := Some "run";
               Output := None; Elapsed := None |} in
  let d2 := {| Package := Some "p"; Test := Some "t"; Action := Some "pass";
               Output := None; Elapsed := Some "0.01" |} in
  test_key d1 = test_key d2 ∧
  package_of d1 = package_of d2 ∧ test_of d1 = test_of d2.
Proof.
  cbv zeta. split; [reflexivity|].
  apply test_key_injective; [| | reflexivity];
    (apply contains_false; reflexivity).
Defined.

(** Without the condition two different events can share a key. *)
Example test_key_collision :
  test_key {| Package := Some "a::b"; Test := None; Action := None;
              Output := None; Elapsed := None |} =
  test_key {| Package := Some "a"; Test := Some "b"; Action := None;
              Output := None; Elapsed := None |}.
Proof. reflexivity. Qed.

(** ** Events that do nothing *)

(** X11.  An event with no output, an action other than fail and no
    [Elapsed] key, such as a run or pause event, writes nothing and leaves
    the state as it was. *)
Theorem silent_event_is_noop (data : dict) (st : state) :
  output_of data = "" →
  action_of data ≠ "fail" →
  Elapsed data = None →
  process data st = (st, []).
Proof.
  intros Hout Hact Hel.
  assert (Hstr : Py.str_eq (action_of data) "fail" = false).
  { destruct (Py.str_eq _ _) eqn:E; [|done]. by apply str_eq_true in E. }
  unfold process, buffer_output, on_fail, classify, cleanup.
  rewrite Hout, Hstr, Hel. simpl. by rewrite andb_false_r.
Qed.

Lemma silent_event_is_noop_witness :
  iteration (event "p" "t" "run" None None) initial = Next initial [].
Proof.
  change (iteration (event "p" "t" "run" None None) initial)
    with (let '(st', written) :=
            process {| Package := Some "p"; Test := Some "t";
                       Action := Some "run"; Output := None;
                       Elapsed := None |} initial
          in Next st' written).
  rewrite silent_event_is_noop; [reflexivity | reflexivity | discriminate | reflexivity].
Defined.

(** ** Output is produced line by line *)


